(** * goto-sms-webhook: the notification-configuration lifecycle and
      dispatch engine, embedded from the server's JavaScript source.

    The development follows the source of the webhook manager: the helpers
    [parsePhoneNumbers], [getAccessToken], [sendSMS] and [formatMessage],
    the changelog recorder [addToChangelog], and the Express handlers of
    the webhook endpoint and of the management API.

    Conventions of the embedding.
    - A JSON value is a [json]; a JavaScript object that the program uses
      as a dictionary is a [gmap string json] holding its own properties.
      Reading a property that is missing gives [undefined], which is
      [None] here; a property whose value is [undefined] reads the same as
      a missing one and is dropped by [JSON.stringify], so the two are
      identified. Property names that a plain object inherits from
      [Object.prototype] are outside the model.
    - Strings are [string]s; a character stands for a code unit below 256.
    - The process-wide variables of the program and the documents it keeps
      on disk form the [world]; what the outside answers during one request
      (clock readings, the token endpoint, the SMS endpoint, the file
      system) is the [env] of that request; outbound HTTP calls are logged
      in the world so that their number and order can be stated. *)

From Stdlib Require Import ZArith Ascii String DecimalString.
From stdpp Require Import gmap strings list fin_maps.

#[local] Open Scope Z_scope.
#[local] Set Warnings "-register-all,-clear-no-such-hyp".

(** ** JavaScript values *)

Module JS.

Inductive json : Type :=
| JNull
| JBool (b : bool)
| JNum (n : Z)          (* the integral numbers; no handler needs fractions *)
| JStr (s : string)
| JArr (l : list json)
| JObj (o : gmap string json).

Abbreviation obj := (gmap string json).

(** ToBoolean: [null], [false], [0] and the empty string are falsy,
    arrays and objects are truthy. *)
Definition ToBoolean (v : json) : bool :=
  match v with
  | JNull => false
  | JBool b => b
  | JNum n => negb (n =? 0)
  | JStr s => negb (bool_decide (s = ""))
  | JArr _ | JObj _ => true
  end.

(** Truthiness of the result of a property read: [undefined] is falsy. *)
Definition truthy (v : option json) : bool :=
  match v with
  | Some x => ToBoolean x
  | None => false
  end.

(** [a || b] *)
Definition or_else (a b : option json) : option json :=
  if truthy a then a else b.

Definition Number_toString (n : Z) : string :=
  NilZero.string_of_int (Z.to_int n).

Fixpoint join (sep : string) (l : list string) : string :=
  match l with
  | [] => ""
  | [x] => x
  | x :: rest => x +:+ sep +:+ join sep rest
  end.

(** ToString; an array is joined with commas, [null] elements printing
    as the empty string, and an object prints as [[object Object]]. *)
Fixpoint ToString (v : json) : string :=
  match v with
  | JNull => "null"
  | JBool true => "true"
  | JBool false => "false"
  | JNum n => Number_toString n
  | JStr s => s
  | JArr l =>
      join "," (map (fun x => match x with JNull => "" | _ => ToString x end) l)
  | JObj _ => "[object Object]"
  end.

Definition ToString_opt (v : option json) : string :=
  match v with
  | Some x => ToString x
  | None => "undefined"
  end.

(** *** String.prototype primitives *)

(** [strip_prefix p s] is the rest of [s] after the prefix [p]. *)
Fixpoint strip_prefix (p s : string) : option string :=
  match p, s with
  | "", _ => Some s
  | String a p', String b s' =>
      if bool_decide (a = b) then strip_prefix p' s' else None
  | String _ _, "" => None
  end.

(** The text before and after the first occurrence of [pat] in [s]. *)
Fixpoint split_first (pat s : string) : option (string * string) :=
  match strip_prefix pat s with
  | Some rest => Some ("", rest)
  | None =>
      match s with
      | "" => None
      | String c s' =>
          match split_first pat s' with
          | Some (before, after) => Some (String c before, after)
          | None => None
          end
      end
  end.

(** GetSubstitution for a string pattern (no capture groups): in the
    replacement text [$$] is a dollar sign, [$&] the matched text,
    [$`] the text before the match and [$'] the text after it; any
    other dollar sign stands for itself. *)
Fixpoint GetSubstitution (matched before after repl : string) : string :=
  match repl with
  | "" => ""
  | String "$" (String c r as tl) =>
      if bool_decide (c = "$"%char)
      then String "$" (GetSubstitution matched before after r)
      else if bool_decide (c = "&"%char)
      then matched +:+ GetSubstitution matched before after r
      else if bool_decide (c = "`"%char)
      then before +:+ GetSubstitution matched before after r
      else if bool_decide (c = "'"%char)
      then after +:+ GetSubstitution matched before after r
      else String "$" (GetSubstitution matched before after tl)
  | String c r => String c (GetSubstitution matched before after r)
  end.

(** [s.replace(pat, repl)] with a string pattern: the first occurrence
    only. *)
Definition replace (pat repl s : string) : string :=
  match split_first pat s with
  | Some (before, after) =>
      before +:+ GetSubstitution pat before after repl +:+ after
  | None => s
  end.

(** [s.split(sep)] for a one-character separator. *)
Fixpoint split (sep : ascii) (s : string) : list string :=
  match s with
  | "" => [""]
  | String c s' =>
      if bool_decide (c = sep) then "" :: split sep s'
      else match split sep s' with
           | piece :: rest => String c piece :: rest
           | [] => [String c ""]
           end
  end.

(** WhiteSpace and LineTerminator code units below 256. *)
Definition is_white (c : ascii) : bool :=
  match c with
  | "009" | "010" | "011" | "012" | "013" | " " | "160" => true
  | _ => false
  end%char.

Fixpoint trimStart (s : string) : string :=
  match s with
  | "" => ""
  | String c s' => if is_white c then trimStart s' else s
  end.

Fixpoint trimEnd (s : string) : string :=
  match s with
  | "" => ""
  | String c s' =>
      match trimEnd s' with
      | "" => if is_white c then "" else String c ""
      | r => String c r
      end
  end.

Definition trim (s : string) : string := trimEnd (trimStart s).

(** [l.slice(-n)]: the last [n] elements. *)
Definition slice_last {A} (n : nat) (l : list A) : list A :=
  drop (length l - n) l.

End JS.
Import JS.

(** ** Errors thrown by the program or by its HTTP client *)

Inductive error : Type :=
| Error (message : string)        (* [new Error(message)] *)
| TypeError (message : string)    (* raised by the runtime *)
| AxiosError (message : string).  (* rejected request of the HTTP client *)

Definition error_message (e : error) : string :=
  match e with
  | Error m | TypeError m | AxiosError m => m
  end.

(** ** parsePhoneNumbers *)

(** [if (!phoneString) return [];] then split on commas, trim, keep the
    non-empty pieces. A truthy argument that is not a string has no
    [split] method, and the call raises a [TypeError]. *)
Definition parsePhoneNumbers (phoneString : option json) : error + list string :=
  if negb (truthy phoneString) then inr []
  else match phoneString with
       | Some (JStr s) =>
           inr (filter (fun num => num <> "") (map trim (split "," s)))
       | _ => inl (TypeError "phoneString.split is not a function")
       end.

(** ** The process state and the environment of a request *)

Definition APP_VERSION : string := "3.0.0".

Record entry : Type := {
  timestamp : string;
  action : string;
  webhookName : string;
  details : json;
  version : string
}.

(** Outbound HTTP calls, in the order in which they are issued. *)
Inductive call : Type :=
| TokenExchange   (* POST config.tokenUrl, grant_type=client_credentials *)
| SendMessage (authorization : string) (contactPhoneNumbers : list string)
    (body : string).   (* POST config.smsApiUrl *)

Record world : Type := {
  notificationConfigs : gmap string obj;
  archivedWebhooks : gmap string obj;
  changelog : list entry;
  accessToken : option string;    (* [null] is [None] *)
  tokenExpiry : option Z;         (* milliseconds since the epoch *)
  webhooksFile : option (gmap string obj);
  archivedFile : option (gmap string obj);
  changelogFile : option (list entry);
  outbound : list call
}.

(** [response.data] of the token endpoint. *)
Record token_response : Type := {
  access_token : option string;
  expires_in : option Z
}.

Record env : Type := {
  clock : Z;              (* [new Date()] while the request is handled *)
  isoNow : string;        (* [new Date().toISOString()] *)
  localeTime : string;    (* [new Date().toLocaleTimeString()] *)
  localeDate : string;    (* [new Date().toLocaleDateString()] *)
  tokenReply : error + token_response;
  replyClock : Z;         (* [Date.now()] once the token reply is in *)
  smsReply : error + json;
  fsOk : bool             (* whether [fs.writeFile] succeeds *)
}.

Definition set_notificationConfigs (v : gmap string obj) (w : world) : world :=
  {| notificationConfigs := v; archivedWebhooks := archivedWebhooks w;
     changelog := changelog w; accessToken := accessToken w;
     tokenExpiry := tokenExpiry w; webhooksFile := webhooksFile w;
     archivedFile := archivedFile w; changelogFile := changelogFile w;
     outbound := outbound w |}.

Definition set_archivedWebhooks (v : gmap string obj) (w : world) : world :=
  {| notificationConfigs := notificationConfigs w; archivedWebhooks := v;
     changelog := changelog w; accessToken := accessToken w;
     tokenExpiry := tokenExpiry w; webhooksFile := webhooksFile w;
     archivedFile := archivedFile w; changelogFile := changelogFile w;
     outbound := outbound w |}.

Definition set_changelog (v : list entry) (w : world) : world :=
  {| notificationConfigs := notificationConfigs w;
     archivedWebhooks := archivedWebhooks w;
     changelog := v; accessToken := accessToken w;
     tokenExpiry := tokenExpiry w; webhooksFile := webhooksFile w;
     archivedFile := archivedFile w; changelogFile := changelogFile w;
     outbound := outbound w |}.

Definition set_token (tok : option string) (expiry : option Z) (w : world) : world :=
  {| notificationConfigs := notificationConfigs w;
     archivedWebhooks := archivedWebhooks w;
     changelog := changelog w; accessToken := tok;
     tokenExpiry := expiry; webhooksFile := webhooksFile w;
     archivedFile := archivedFile w; changelogFile := changelogFile w;
     outbound := outbound w |}.

Definition set_webhooksFile (v : gmap string obj) (w : world) : world :=
  {| notificationConfigs := notificationConfigs w;
     archivedWebhooks := archivedWebhooks w;
     changelog := changelog w; accessToken := accessToken w;
     tokenExpiry := tokenExpiry w; webhooksFile := Some v;
     archivedFile := archivedFile w; changelogFile := changelogFile w;
     outbound := outbound w |}.

Definition set_archivedFile (v : gmap string obj) (w : world) : world :=
  {| notificationConfigs := notificationConfigs w;
     archivedWebhooks := archivedWebhooks w;
     changelog := changelog w; accessToken := accessToken w;
     tokenExpiry := tokenExpiry w; webhooksFile := webhooksFile w;
     archivedFile := Some v; changelogFile := changelogFile w;
     outbound := outbound w |}.

Definition set_changelogFile (v : list entry) (w : world) : world :=
  {| notificationConfigs := notificationConfigs w;
     archivedWebhooks := archivedWebhooks w;
     changelog := changelog w; accessToken := accessToken w;
     tokenExpiry := tokenExpiry w; webhooksFile := webhooksFile w;
     archivedFile := archivedFile w; changelogFile := Some v;
     outbound := outbound w |}.

Definition log_call (c : call) (w : world) : world :=
  {| notificationConfigs := notificationConfigs w;
     archivedWebhooks := archivedWebhooks w;
     changelog := changelog w; accessToken := accessToken w;
     tokenExpiry := tokenExpiry w; webhooksFile := webhooksFile w;
     archivedFile := archivedFile w; changelogFile := changelogFile w;
     outbound := outbound w ++ [c] |}.

(** ** The monad of a request: environment, state and exceptions *)

Inductive outcome (A : Type) : Type :=
| Return (a : A)
| Throw (e : error).
Arguments Return {A} a.
Arguments Throw {A} e.

Definition M (A : Type) : Type := env -> world -> outcome A * world.

#[export] Instance M_ret : MRet M := fun A a _ w => (Return a, w).

#[export] Instance M_bind : MBind M := fun A B k m e w =>
  match m e w with
  | (Return a, w') => k a e w'
  | (Throw err, w') => (Throw err, w')
  end.

Definition throw {A} (err : error) : M A := fun _ w => (Throw err, w).

(** [try { m } catch (error) { h error }] *)
Definition try_catch {A} (m : M A) (h : error -> M A) : M A := fun e w =>
  match m e w with
  | (Return a, w') => (Return a, w')
  | (Throw err, w') => h err e w'
  end.

Definition ask : M env := fun e w => (Return e, w).
Definition get : M world := fun _ w => (Return w, w).
Definition modify (f : world -> world) : M unit := fun _ w => (Return tt, f w).

(** The result of [await]ing a promise of the outside world. *)
Definition await {A} (r : error + A) : M A :=
  match r with
  | inl err => throw err
  | inr a => mret a
  end.

(** ** Persistence: failures of the write are logged and swallowed *)

Definition saveWebhooks (webhooks : gmap string obj) : M unit :=
  e ← ask;
  if fsOk e then modify (set_webhooksFile webhooks) else mret tt.

Definition saveArchived (archived : gmap string obj) : M unit :=
  e ← ask;
  if fsOk e then modify (set_archivedFile archived) else mret tt.

(** [const trimmed = changelog.slice(-100)]: only the copy that is
    written is cut to the last 100 entries. *)
Definition saveChangelog (cl : list entry) : M unit :=
  e ← ask;
  let trimmed := slice_last 100 cl in
  if fsOk e then modify (set_changelogFile trimmed) else mret tt.

(** ** Changelog recorder *)

Definition new_entry (e : env) (action_ webhookName_ : string) (details_ : json)
    (version_ : string) : entry :=
  {| timestamp := isoNow e; action := action_; webhookName := webhookName_;
     details := details_; version := version_ |}.

(** The recorder of the persistent server (version 3.0.0):
    [changelog.push({...}); await saveChangelog(changelog);] *)
Definition addToChangelog (action_ webhookName_ : string) (details_ : json) : M unit :=
  e ← ask;
  w ← get;
  modify (set_changelog
            (changelog w ++ [new_entry e action_ webhookName_ details_ APP_VERSION]));;
  w ← get;
  saveChangelog (changelog w).

(** The recorder of [app.js] (version 2.0.0), which keeps nothing on disk:
    [changelog.push({...});
     if (changelog.length > 100) changelog = changelog.slice(-100);] *)
Module AppJs.

Definition APP_VERSION : string := "2.0.0".

Definition addToChangelog (action_ webhookName_ : string) (details_ : json) : M unit :=
  e ← ask;
  w ← get;
  modify (set_changelog
            (changelog w ++ [new_entry e action_ webhookName_ details_ APP_VERSION]));;
  w ← get;
  if bool_decide (100 < length (changelog w))%nat
  then modify (set_changelog (slice_last 100 (changelog w)))
  else mret tt.

End AppJs.

(** [GET /api/changelog]: [res.json(changelog)] *)
Definition get_changelog : M (list entry) :=
  w ← get; mret (changelog w).

(** ** Credential cache *)

Definition token_truthy (t : option string) : bool :=
  match t with
  | Some s => negb (bool_decide (s = ""))
  | None => false
  end.

(** [if (accessToken && tokenExpiry && new Date() < tokenExpiry)], a
    [Date] object being always truthy. *)
Definition token_valid (e : env) (w : world) : bool :=
  token_truthy (accessToken w) &&
  match tokenExpiry w with
  | Some expiry => bool_decide (clock e < expiry)
  | None => false
  end.

(** [response.data.expires_in || 3600] *)
Definition expiresIn (r : token_response) : Z :=
  match expires_in r with
  | Some n => if n =? 0 then 3600 else n
  | None => 3600
  end.

Definition getAccessToken : M (option string) :=
  e ← ask;
  w ← get;
  if token_valid e w then mret (accessToken w)
  else
    modify (log_call TokenExchange);;
    response ← await (tokenReply e);
    modify (set_token (access_token response)
                      (Some (replyClock e + (expiresIn response - 300) * 1000)));;
    mret (access_token response).

(** ** SMS dispatcher *)

(** [`Bearer ${token}`] *)
Definition bearer (token : option string) : string :=
  "Bearer " +:+ from_option id "undefined" token.

Definition sendSMS (message : string) (recipients : option json) : M json :=
  e ← ask;
  token ← getAccessToken;
  phoneNumbers ← await (parsePhoneNumbers recipients);
  if bool_decide (length phoneNumbers = 0%nat)
  then throw (Error "No valid recipient phone numbers")
  else
    modify (log_call (SendMessage (bearer token) phoneNumbers message));;
    await (smsReply e).

(** ** Template renderer *)

(** The replacement argument [v || 'default'], converted to a string by
    [replace]. *)
Definition or_default (v : option json) (default : string) : string :=
  ToString_opt (or_else v (Some (JStr default))).

Definition formatMessage (time date : string) (template : string) (data : obj) : string :=
  let message := template in
  let message := replace "{callerNumber}"
                   (or_default (data !! "callerNumber") "Unknown") message in
  let message := replace "{callerName}"
                   (or_default (or_else (data !! "callerName") (data !! "callerNumber"))
                      "Unknown") message in
  let message := replace "{extension}"
                   (or_default (or_else (data !! "extension") (data !! "extensionNumber"))
                      "N/A") message in
  let message := replace "{time}" time message in
  let message := replace "{date}" date message in
  let message := replace "{customMessage}"
                   (or_default (data !! "customMessage") "Notification") message in
  let message := replace "{queueName}"
                   (or_default (data !! "queueName") "N/A") message in
  let message := replace "{waitTime}"
                   (or_default (data !! "waitTime") "N/A") message in
  message.

(** The call [formatMessage(config.messageTemplate, data)]: a template that
    is not a string has no [replace] method. *)
Definition call_formatMessage (template : option json) (data : obj) : M string :=
  e ← ask;
  match template with
  | Some (JStr t) => mret (formatMessage (localeTime e) (localeDate e) t data)
  | _ => throw (TypeError "message.replace is not a function")
  end.

(** ** Webhook dispatch front *)

(** A property [k: v] of an object literal. *)
Definition prop (k : string) (v : option json) (o : obj) : obj :=
  match v with
  | Some x => <[k := x]> o
  | None => delete k o
  end.

(** A spread [...src] inside an object literal: the own properties of
    [src] are written over what the literal holds so far. *)
Definition spread {V} (src o : gmap string V) : gmap string V := src ∪ o.

(** The event data built from [req.body] and [req.query]. *)
Definition eventData (body query : obj) : obj :=
  let data := ∅ in
  let data := prop "callerNumber"
                (or_else (or_else (body !! "callerNumber") (body !! "caller"))
                   (body !! "from")) data in
  let data := prop "callerName"
                (or_else (body !! "callerName") (body !! "name")) data in
  let data := prop "extension"
                (or_else (or_else (body !! "extension") (body !! "extensionNumber"))
                   (body !! "to")) data in
  let data := prop "customMessage"
                (or_else (body !! "message") (query !! "message")) data in
  let data := prop "queueName" (body !! "queueName") data in
  let data := prop "waitTime" (body !! "waitTime") data in
  let data := spread body data in
  data.

Inductive body : Type :=
| UnknownType (available : gset string)
    (* [{error: 'Unknown notification type', available}] *)
| NotificationSent (type : string) (recipientCount : nat)
    (* [{success: true, type, message: 'Notification sent successfully',
         recipientCount}] *)
| Failure (error : string)       (* [{success: false, error}] *)
| Success (message : string)     (* [{success: true, message}] *)
| ErrorBody (error : string).    (* [{error}] *)

Record response : Type := { status : nat; payload : body }.

Definition recipientCount_of (recipients : option json) : nat :=
  match parsePhoneNumbers recipients with
  | inr l => length l
  | inl _ => 0
  end.

(** [app.post('/sms-whook/:type', ...)]; the recorder is a parameter since
    the two servers differ only there. *)
Definition sms_whook (record : string -> string -> json -> M unit)
    (notificationType : string) (body query : obj) : M response :=
  w ← get;
  match notificationConfigs w !! notificationType with
  | None =>
      mret {| status := 404;
              payload := UnknownType (dom (notificationConfigs w)) |}
  | Some config =>
      try_catch
        (let data := eventData body query in
         message ← call_formatMessage (config !! "messageTemplate") data;
         _ ← sendSMS message (config !! "recipients");
         record "webhook_triggered" notificationType
           (JObj (prop "callerNumber" (data !! "callerNumber") ∅));;
         mret {| status := 200;
                 payload := NotificationSent notificationType
                              (recipientCount_of (config !! "recipients")) |})
        (fun err =>
           mret {| status := 500; payload := Failure (error_message err) |})
  end.

(** ** Management API (the persistent server) *)

(** [app.post('/api/webhooks', ...)], body [{name, config}];
    [if (name && config)]: the name is present and not empty, the config
    is present. *)
Definition post_webhooks (name : option string) (config : option obj) : M response :=
  match name, config with
  | Some name, Some config =>
      if bool_decide (name = "")
      then mret {| status := 400; payload := ErrorBody "Invalid webhook data" |}
      else
        w ← get;
        modify (set_notificationConfigs (<[name := config]> (notificationConfigs w)));;
        w ← get;
        saveWebhooks (notificationConfigs w);;
        addToChangelog "webhook_created" name (JObj config);;
        mret {| status := 200; payload := Success "Webhook created" |}
  | _, _ => mret {| status := 400; payload := ErrorBody "Invalid webhook data" |}
  end.

(** [app.put('/api/webhooks/:name', ...)], body the partial config. *)
Definition put_webhook (name : string) (config : obj) : M response :=
  w ← get;
  match notificationConfigs w !! name with
  | Some current =>
      let oldConfig := spread current ∅ in
      let newConfig := spread config (spread current ∅) in
      modify (set_notificationConfigs (<[name := newConfig]> (notificationConfigs w)));;
      w ← get;
      saveWebhooks (notificationConfigs w);;
      addToChangelog "webhook_updated" name
        (JObj (prop "new" (JObj <$> notificationConfigs w !! name)
                 (prop "old" (Some (JObj oldConfig)) ∅)));;
      mret {| status := 200; payload := Success "Webhook updated" |}
  | None => mret {| status := 404; payload := ErrorBody "Webhook not found" |}
  end.

(** [app.post('/api/webhooks/:name/archive', ...)] *)
Definition post_archive (name : string) : M response :=
  e ← ask;
  w ← get;
  match notificationConfigs w !! name with
  | Some current =>
      modify (set_archivedWebhooks
                (<[name := prop "archivedAt" (Some (JStr (isoNow e)))
                             (spread current ∅)]> (archivedWebhooks w)));;
      w ← get;
      modify (set_notificationConfigs (delete name (notificationConfigs w)));;
      w ← get;
      saveWebhooks (notificationConfigs w);;
      saveArchived (archivedWebhooks w);;
      addToChangelog "webhook_archived" name (JObj ∅);;
      mret {| status := 200; payload := Success "Webhook archived" |}
  | None => mret {| status := 404; payload := ErrorBody "Webhook not found" |}
  end.

(** [app.post('/api/webhooks/:name/restore', ...)] *)
Definition post_restore (name : string) : M response :=
  w ← get;
  match archivedWebhooks w !! name with
  | Some archived =>
      modify (set_notificationConfigs
                (<[name := spread archived ∅]> (notificationConfigs w)));;
      w ← get;
      modify (set_notificationConfigs
                (alter (delete "archivedAt") name (notificationConfigs w)));;
      w ← get;
      modify (set_archivedWebhooks (delete name (archivedWebhooks w)));;
      w ← get;
      saveWebhooks (notificationConfigs w);;
      saveArchived (archivedWebhooks w);;
      addToChangelog "webhook_restored" name (JObj ∅);;
      mret {| status := 200; payload := Success "Webhook restored" |}
  | None => mret {| status := 404; payload := ErrorBody "Archived webhook not found" |}
  end.

(** [app.post('/api/import', ...)], body [{webhooks, archived}]. *)
Definition post_import (webhooks archived : option (gmap string obj)) : M response :=
  match webhooks with
  | Some webhooks =>
      w ← get;
      modify (set_notificationConfigs
                (spread webhooks (spread (notificationConfigs w) ∅)));;
      w ← get;
      saveWebhooks (notificationConfigs w)
  | None => mret tt
  end;;
  match archived with
  | Some archived =>
      w ← get;
      modify (set_archivedWebhooks
                (spread archived (spread (archivedWebhooks w) ∅)));;
      w ← get;
      saveArchived (archivedWebhooks w)
  | None => mret tt
  end;;
  addToChangelog "data_imported" "system"
    (JObj {[ "webhookCount" := JNum (Z.of_nat (size (default ∅ webhooks))) ]});;
  mret {| status := 200; payload := Success "Data imported successfully" |}.

(** [app.get('/api/webhooks', ...)]: the two maps as they are. *)
Definition get_webhooks : M (gmap string obj * gmap string obj) :=
  w ← get; mret (notificationConfigs w, archivedWebhooks w).

(** ** Running requests *)

(** The world after a request, and what the request answered. *)
Definition exec {A} (m : M A) (e : env) (w : world) : world := snd (m e w).
Definition answer {A} (m : M A) (e : env) (w : world) : outcome A := fst (m e w).

(** The mutating requests of the management API. *)
Inductive request : Type :=
| CreateRequest (name : string) (config : obj)
| UpdateRequest (name : string) (config : obj)
| ArchiveRequest (name : string)
| RestoreRequest (name : string)
| ImportRequest (webhooks archived : option (gmap string obj)).

Definition handle (r : request) : M response :=
  match r with
  | CreateRequest name config => post_webhooks (Some name) (Some config)
  | UpdateRequest name config => put_webhook name config
  | ArchiveRequest name => post_archive name
  | RestoreRequest name => post_restore name
  | ImportRequest webhooks archived => post_import webhooks archived
  end.

(** A run: each request is served in the environment that comes with it. *)
Fixpoint run (rs : list (request * env)) (w : world) : world :=
  match rs with
  | [] => w
  | (r, e) :: rest => run rest (exec (handle r) e w)
  end.

(** The names of the active and of the archived map never meet. *)
Definition disjoint_store (w : world) : Prop :=
  dom (notificationConfigs w) ## dom (archivedWebhooks w).

Definition empty_world : world :=
  {| notificationConfigs := ∅; archivedWebhooks := ∅; changelog := [];
     accessToken := None; tokenExpiry := None; webhooksFile := None;
     archivedFile := None; changelogFile := None; outbound := [] |}.

Definition quiet_env : env :=
  {| clock := 0; isoNow := "2025-01-01T00:00:00.000Z";
     localeTime := "12:00:00 AM"; localeDate := "1/1/2025";
     tokenReply := inr {| access_token := Some "tok"; expires_in := Some 3600 |};
     replyClock := 0; smsReply := inr (JObj ∅); fsOk := true |}.

(** ** Vocabulary of the properties *)

Definition vip_config : obj :=
  {[ "recipients" := JStr "+15550001111";
     "messageTemplate" := JStr "VIP: {callerNumber}" ]}.

Definition vip_world : world :=
  set_notificationConfigs {[ "vip" := vip_config ]} empty_world.

Definition cached_world : world :=
  set_token (Some "tok") (Some 3300000) empty_world.




(** [n] appends in a row. *)
Fixpoint appends (record : string -> string -> json -> M unit) (n : nat)
    (w : world) : world :=
  match n with
  | O => w
  | S n' =>
      exec (record "webhook_created" "vip" (JObj vip_config)) quiet_env
        (appends record n' w)
  end.

Fixpoint has_char (c : ascii) (s : string) : bool :=
  match s with
  | "" => false
  | String a s' => bool_decide (a = c) || has_char c s'
  end.

Fixpoint all_white (s : string) : bool :=
  match s with
  | "" => true
  | String c s' => is_white c && all_white s'
  end.

Definition starts_black (s : string) : bool :=
  match s with
  | "" => false
  | String c _ => negb (is_white c)
  end.

Fixpoint ends_black (s : string) : bool :=
  match s with
  | "" => false
  | String c "" => negb (is_white c)
  | String _ s' => ends_black s'
  end.

(** Nothing to trim: empty, or with a non-blank character at both ends. *)
Definition trimmed (s : string) : Prop :=
  s = "" \/ (starts_black s = true /\ ends_black s = true).







(** ** Start-up, export, test and summary endpoints *)

(** [config.myPhoneNumber] of the persistent server. *)
Definition myPhoneNumber : string := "+16158305740".

Definition nl : string := String "010" "".

Definition default_webhook (template description : string) (notify : bool)
    (tags : list string) : obj :=
  {[ "recipients" := JStr myPhoneNumber;
     "messageTemplate" := JStr template;
     "description" := JStr description;
     "email" := JStr "";
     "browserNotify" := JBool notify;
     "tags" := JArr (JStr <$> tags) ]}.

(** The webhooks [loadWebhooks] returns when the file cannot be read. *)
Definition default_webhooks : gmap string obj :=
  {[ "after-hours" :=
       default_webhook
         ("After Hours Call" +:+ nl +:+ "From: {callerNumber}" +:+ nl
          +:+ "Time: {time}" +:+ nl +:+ "Extension: {extension}")
         "Alerts for calls received after business hours" false [];
     "emergency" :=
       default_webhook
         ("EMERGENCY CALL" +:+ nl +:+ "From: {callerNumber}" +:+ nl
          +:+ "Time: {time}" +:+ nl +:+ "URGENT ATTENTION REQUIRED")
         "Emergency call notifications" true ["urgent"];
     "vip" :=
       default_webhook
         ("VIP Customer Calling" +:+ nl +:+ "Name: {callerName}" +:+ nl
          +:+ "Number: {callerNumber}" +:+ nl +:+ "Time: {time}")
         "VIP customer call alerts" false ["vip"];
     "sales" :=
       default_webhook
         ("Sales Call" +:+ nl +:+ "From: {callerNumber}" +:+ nl
          +:+ "Time: {time}" +:+ nl +:+ "Sales line: {extension}")
         "New sales inquiry" false ["sales"];
     "overflow" :=
       default_webhook
         ("Queue Overflow" +:+ nl +:+ "Caller waiting: {callerNumber}" +:+ nl
          +:+ "Wait time exceeded" +:+ nl +:+ "Time: {time}")
         "Support queue overflow alert" true ["urgent"; "support"];
     "missed" :=
       default_webhook
         ("Missed Call" +:+ nl +:+ "From: {callerNumber}" +:+ nl
          +:+ "To: {extension}" +:+ nl +:+ "Time: {time}")
         "Missed call notification" false [];
     "general" :=
       default_webhook
         ("Call Alert" +:+ nl +:+ "From: {callerNumber}" +:+ nl
          +:+ "To: {extension}" +:+ nl +:+ "Time: {time}")
         "General call notification" false [] ]}.

(** The loaders: the parsed document, or the fallback when the file is
    missing or unreadable. *)
Definition loadWebhooks (w : world) : gmap string obj :=
  default default_webhooks (webhooksFile w).

Definition loadArchived (w : world) : gmap string obj :=
  default ∅ (archivedFile w).

Definition loadChangelog (w : world) : list entry :=
  default [] (changelogFile w).

(** A process start on the files the world holds: the three stores are
    loaded, the token variables start as [null]. *)
Definition startup (w : world) : world :=
  {| notificationConfigs := loadWebhooks w;
     archivedWebhooks := loadArchived w;
     changelog := loadChangelog w;
     accessToken := None; tokenExpiry := None;
     webhooksFile := webhooksFile w; archivedFile := archivedFile w;
     changelogFile := changelogFile w; outbound := outbound w |}.

(** The same request environment with another answer of the file
    system. *)
Definition with_fsOk (b : bool) (e : env) : env :=
  {| clock := clock e; isoNow := isoNow e; localeTime := localeTime e;
     localeDate := localeDate e; tokenReply := tokenReply e;
     replyClock := replyClock e; smsReply := smsReply e; fsOk := b |}.

(** What lives in the process: the two maps and the changelog. *)
Definition memory (w : world) : gmap string obj * gmap string obj * list entry :=
  (notificationConfigs w, archivedWebhooks w, changelog w).

Definition files (w : world)
    : option (gmap string obj) * option (gmap string obj) * option (list entry) :=
  (webhooksFile w, archivedFile w, changelogFile w).

(** A process start would find the two maps as they are now. *)
Definition durable (w : world) : Prop :=
  loadWebhooks w = notificationConfigs w /\ loadArchived w = archivedWebhooks w.

(** [app.get('/api/export', ...)]: the three stores as they are. *)
Record export : Type := {
  export_version : string;
  export_timestamp : string;
  export_webhooks : gmap string obj;
  export_archived : gmap string obj;
  export_changelog : list entry
}.

Definition get_export : M export :=
  e ← ask;
  w ← get;
  mret {| export_version := APP_VERSION; export_timestamp := isoNow e;
          export_webhooks := notificationConfigs w;
          export_archived := archivedWebhooks w;
          export_changelog := changelog w |}.









(** * Properties *)

Ltac unfold_M :=
  unfold exec, answer, mbind, M_bind, mret, M_ret, ask, get, modify, throw,
    await, try_catch in *.

(** ** Webhook trigger for an unknown name *)



(** ** Credential cache *)






(** Whatever happens, [getAccessToken] touches nothing but the cache and
    the log of outbound calls, where it adds at most one exchange. *)
Lemma getAccessToken_outbound e w :
  outbound (exec getAccessToken e w)
  = outbound w ++ (if token_valid e w then [] else [TokenExchange]).
Proof.
  unfold getAccessToken. unfold_M. destruct (token_valid e w); cbn.
  - by rewrite app_nil_r.
  - by destruct (tokenReply e).
Qed.






(** ** SMS dispatcher *)

(** C4 as stated fails: with an empty recipient list the token is still
    acquired first. From a cold cache, [sendSMS] with recipients [""]
    makes a token exchange before it reports that there is no
    recipient. *)
Lemma sendSMS_exchanges_before_check :
  ~ (forall message recipients e w,
       parsePhoneNumbers recipients = inr [] ->
       answer (sendSMS message recipients) e w
         = Throw (Error "No valid recipient phone numbers")
       /\ outbound (exec (sendSMS message recipients) e w) = outbound w).
Proof.
  intros H.
  destruct (H "hello" (Some (JStr "")) quiet_env empty_world eq_refl) as [_ Hout].
  vm_compute in Hout. discriminate Hout.
Qed.

(** C4, amended: when the recipients parse to the empty list, [sendSMS]
    first obtains a token from the credential cache, with everything that
    entails (one exchange unless a valid token is cached); if that fails
    the credential error propagates, otherwise the call fails with the
    no-recipient error; either way nothing is sent to the provider: the
    world is the one [getAccessToken] leaves. *)
Theorem sendSMS_no_recipients message recipients e w :
  parsePhoneNumbers recipients = inr [] ->
  answer (sendSMS message recipients) e w
    = match answer getAccessToken e w with
      | Return _ => Throw (Error "No valid recipient phone numbers")
      | Throw err => Throw err
      end
  /\ exec (sendSMS message recipients) e w = exec getAccessToken e w
  /\ outbound (exec (sendSMS message recipients) e w)
     = outbound w ++ (if token_valid e w then [] else [TokenExchange]).
Proof.
  intros Hparse.
  assert (sendSMS message recipients e w
          = match getAccessToken e w with
            | (Return _, w') => (Throw (Error "No valid recipient phone numbers"), w')
            | (Throw err, w') => (Throw err, w')
            end) as Heq.
  { unfold sendSMS. unfold_M. destruct (getAccessToken e w) as [[tok|err] w']; [|done].
    by rewrite Hparse. }
  unfold answer, exec. rewrite Heq.
  split; [|split].
  - by destruct (getAccessToken e w) as [[tok|err] w'].
  - by destruct (getAccessToken e w) as [[tok|err] w'].
  - rewrite <- getAccessToken_outbound. unfold exec.
    by destruct (getAccessToken e w) as [[tok|err] w'].
Qed.

Lemma sendSMS_no_recipients_witness :
  answer (sendSMS "hello" (Some (JStr " , ,"))) quiet_env empty_world
    = Throw (Error "No valid recipient phone numbers")
  /\ outbound (exec (sendSMS "hello" (Some (JStr " , ,"))) quiet_env empty_world)
     = [TokenExchange].
Proof.
  destruct (sendSMS_no_recipients "hello" (Some (JStr " , ,")) quiet_env
              empty_world eq_refl) as (Ha & _ & Ho).
  split; [exact Ha | exact Ho].
Defined.


(** ** Archive and restore *)

Lemma spread_empty {V} (m : gmap string V) : spread m ∅ = m.
Proof. unfold spread. apply (right_id_L ∅ (∪)). Qed.



(** ** Event data of a trigger *)

Lemma lookup_prop (k k' : string) (v : option json) (o : obj) :
  prop k v o !! k' = if decide (k = k') then v else o !! k'.
Proof.
  unfold prop. destruct v as [x|].
  - by rewrite lookup_insert.
  - rewrite lookup_delete. by destruct (decide (k = k')).
Qed.

(** What the code does: a field of the payload goes into the event data
    as it is, whatever the aliases say. *)
Lemma eventData_payload_wins (body query : obj) (k : string) v :
  body !! k = Some v -> eventData body query !! k = Some v.
Proof.
  intros Hk. unfold eventData, spread. by apply lookup_union_Some_l.
Qed.

(** The aliases only fill in for a field the payload does not have. *)
Lemma eventData_aliases (body query : obj) :
  (body !! "callerNumber" = None ->
   eventData body query !! "callerNumber"
   = or_else (body !! "caller") (body !! "from"))
  /\ (body !! "extension" = None ->
      eventData body query !! "extension"
      = or_else (body !! "extensionNumber") (body !! "to")).
Proof.
  split; intros Hk; unfold eventData, spread;
    rewrite lookup_union_r by exact Hk;
    rewrite !lookup_prop; cbn; by rewrite Hk.
Qed.

(** C3 on the code: with [{callerNumber: "", caller: "+15551234567"}] (or
    a [null] callerNumber) the event data does not resolve callerNumber to
    the caller; the spread of the payload comes last and puts the falsy
    value back, so the message shows the default. *)
Theorem eventData_falsy_callerNumber :
  eventData {[ "callerNumber" := JStr ""; "caller" := JStr "+15551234567" ]} ∅
    !! "callerNumber" = Some (JStr "")
  /\ eventData {[ "callerNumber" := JNull; "from" := JStr "+15551234567" ]} ∅
       !! "callerNumber" = Some JNull
  /\ formatMessage "9:30:00 AM" "1/1/2025" "From: {callerNumber}"
       (eventData {[ "callerNumber" := JStr ""; "caller" := JStr "+15551234567" ]} ∅)
     = "From: Unknown"
  /\ eventData {[ "caller" := JStr "+15551234567" ]} ∅ !! "callerNumber"
     = Some (JStr "+15551234567").
Proof. repeat split; vm_compute; reflexivity. Qed.

(** ** Disjointness of the active and the archived names *)

Lemma addToChangelog_store a n d e w :
  notificationConfigs (exec (addToChangelog a n d) e w) = notificationConfigs w
  /\ archivedWebhooks (exec (addToChangelog a n d) e w) = archivedWebhooks w.
Proof.
  unfold addToChangelog, saveChangelog. unfold_M. cbn. by destruct (fsOk e).
Qed.


Lemma store_after_update (name : string) (config : obj) e w :
  notificationConfigs (exec (put_webhook name config) e w)
    = match notificationConfigs w !! name with
      | Some current => <[name := config ∪ current]> (notificationConfigs w)
      | None => notificationConfigs w
      end
  /\ archivedWebhooks (exec (put_webhook name config) e w) = archivedWebhooks w.
Proof.
  unfold put_webhook, addToChangelog, saveWebhooks, saveChangelog.
  unfold_M. cbn. destruct (notificationConfigs w !! name) as [current|]; [|done].
  cbn. rewrite spread_empty. unfold spread. by destruct (fsOk e).
Qed.



Lemma store_after_import (webhooks archived : option (gmap string obj)) e w :
  notificationConfigs (exec (post_import webhooks archived) e w)
    = default ∅ webhooks ∪ notificationConfigs w
  /\ archivedWebhooks (exec (post_import webhooks archived) e w)
     = default ∅ archived ∪ archivedWebhooks w.
Proof.
  unfold post_import, addToChangelog, saveWebhooks, saveArchived, saveChangelog.
  unfold_M. unfold spread.
  destruct webhooks as [wh|], archived as [ar|]; cbn; destruct (fsOk e); cbn;
    rewrite ?(right_id_L ∅ (∪)), ?(left_id_L ∅ (∪)); done.
Qed.





Lemma import_over_archived_name :
  ~ disjoint_store
      (run [(ArchiveRequest "vip", quiet_env);
            (ImportRequest (Some {[ "vip" := vip_config ]}) None, quiet_env)]
         vip_world).
Proof.
  unfold disjoint_store. intros H.
  apply (H "vip"); apply elem_of_dom; eexists; vm_compute; reflexivity.
Qed.



(** ** Changelog recorder *)

Lemma addToChangelog_changelog a n d e w :
  changelog (exec (addToChangelog a n d) e w)
  = changelog w ++ [new_entry e a n d APP_VERSION].
Proof.
  unfold addToChangelog, saveChangelog. unfold_M. cbn. by destruct (fsOk e).
Qed.

(** In the persistent server the sequence in memory only ever grows;
    the cut to 100 entries is applied to the copy written to disk. *)
Lemma addToChangelog_grows a n d e w :
  length (changelog (exec (addToChangelog a n d) e w))
  = S (length (changelog w)).
Proof. rewrite addToChangelog_changelog, length_app. cbn. lia. Qed.

Lemma addToChangelog_file a n d e w :
  fsOk e = true ->
  changelogFile (exec (addToChangelog a n d) e w)
  = Some (slice_last 100 (changelog w ++ [new_entry e a n d APP_VERSION])).
Proof.
  intros Hfs. unfold addToChangelog, saveChangelog. unfold_M. cbn.
  by rewrite Hfs.
Qed.

Lemma length_slice_last {A} n (l : list A) :
  length (slice_last n l) = Nat.min n (length l).
Proof. unfold slice_last. rewrite length_drop. lia. Qed.

Lemma appends_length n w :
  length (changelog (appends addToChangelog n w))
  = (n + length (changelog w))%nat.
Proof.
  induction n as [|n IH]; cbn; [done|].
  by rewrite addToChangelog_grows, IH.
Qed.

(** C2 on the persistent server: after 101 appends from an empty
    changelog the sequence in memory, which is what [GET /api/changelog]
    returns, has 101 entries; only the file holds 100. *)
Theorem addToChangelog_exceeds_100 :
  length (changelog (appends addToChangelog 101 empty_world)) = 101%nat
  /\ answer get_changelog quiet_env (appends addToChangelog 101 empty_world)
     = Return (changelog (appends addToChangelog 101 empty_world))
  /\ length <$> changelogFile (appends addToChangelog 101 empty_world)
     = Some 100%nat.
Proof.
  split; [|split].
  - by rewrite appends_length.
  - reflexivity.
  - change (appends addToChangelog 101 empty_world)
      with (exec (addToChangelog "webhook_created" "vip" (JObj vip_config))
              quiet_env (appends addToChangelog 100 empty_world)).
    rewrite addToChangelog_file by reflexivity.
    apply fmap_Some. eexists. split; [reflexivity|].
    rewrite length_slice_last, length_app, appends_length. reflexivity.
Qed.

Lemma AppJs_addToChangelog_changelog a n d e w :
  changelog (exec (AppJs.addToChangelog a n d) e w)
  = let l := changelog w ++ [new_entry e a n d AppJs.APP_VERSION] in
    if bool_decide (100 < length l)%nat then slice_last 100 l else l.
Proof.
  unfold AppJs.addToChangelog. unfold_M. cbn -[slice_last].
  by case_bool_decide.
Qed.

(** The recorder of [app.js] does what C2 says: after every append the
    sequence in memory has at most 100 entries, and an append to a
    sequence of 100 drops the oldest entry and keeps the others in
    order. *)
Lemma AppJs_addToChangelog_bounded a n d e w :
  (length (changelog (exec (AppJs.addToChangelog a n d) e w)) <= 100)%nat
  /\ (length (changelog w) = 100%nat ->
      changelog (exec (AppJs.addToChangelog a n d) e w)
      = tail (changelog w) ++ [new_entry e a n d AppJs.APP_VERSION])
  /\ ((length (changelog w) < 100)%nat ->
      changelog (exec (AppJs.addToChangelog a n d) e w)
      = changelog w ++ [new_entry e a n d AppJs.APP_VERSION]).
Proof.
  rewrite AppJs_addToChangelog_changelog.
  set (l := changelog w ++ [new_entry e a n d AppJs.APP_VERSION]).
  assert (length l = S (length (changelog w))) as Hl
    by (unfold l; rewrite length_app; cbn; lia).
  cbv zeta. split; [|split].
  - case_bool_decide; [|lia]. rewrite length_slice_last. lia.
  - intros H100. rewrite bool_decide_eq_true_2 by lia.
    unfold slice_last. rewrite Hl, H100.
    unfold l. destruct (changelog w) as [|x rest]; [done|]. reflexivity.
  - intros Hlt. by rewrite bool_decide_eq_false_2 by lia.
Qed.

(** ** Strings *)

Lemma app_String c (s t : string) : String c s +:+ t = String c (s +:+ t).
Proof. reflexivity. Qed.

Lemma app_empty_l (t : string) : "" +:+ t = t.
Proof. reflexivity. Qed.

Lemma app_empty_r (s : string) : s +:+ "" = s.
Proof. induction s as [|c s IH]; [done|]. by rewrite app_String, IH. Qed.


(** *** split and join *)

Lemma split_not_nil sep s : split sep s <> [].
Proof.
  destruct s as [|c s]; cbn; [done|].
  case_bool_decide; [done|]. by destruct (split sep s).
Qed.

Lemma split_no_sep sep x : has_char sep x = false -> split sep x = [x].
Proof.
  induction x as [|c x IH]; cbn; [done|].
  intros [Hc Hx]%orb_false_iff. rewrite Hc, (IH Hx). done.
Qed.

Lemma split_piece sep x rest :
  has_char sep x = false ->
  split sep (x +:+ String sep rest) = x :: split sep rest.
Proof.
  induction x as [|c x IH]; intros Hx.
  - rewrite app_empty_l. cbn. by rewrite bool_decide_eq_true_2.
  - cbn in Hx. apply orb_false_iff in Hx as [Hc Hx].
    rewrite app_String. cbn. rewrite Hc, (IH Hx). done.
Qed.

Lemma split_join sep (ps : list string) :
  ps <> [] -> Forall (fun p => has_char sep p = false) ps ->
  split sep (join (String sep "") ps) = ps.
Proof.
  induction ps as [|p ps IH]; [done|]. intros _ Hall.
  apply Forall_cons in Hall as [Hp Hps].
  destruct ps as [|q ps]; cbn.
  - by apply split_no_sep.
  - change (String sep "" +:+ ?r) with (String sep r).
    rewrite split_piece by done. f_equal. by apply IH.
Qed.

(** *** trim *)

Lemma trimStart_white a s : all_white a = true -> trimStart (a +:+ s) = trimStart s.
Proof.
  induction a as [|c a IH]; [done|]. cbn. intros [Hc Ha]%andb_true_iff.
  rewrite app_String. cbn. rewrite Hc. by apply IH.
Qed.

Lemma trimStart_black s : starts_black s = true -> trimStart s = s.
Proof. destruct s as [|c s]; cbn; [done|]. by intros ->%negb_true_iff. Qed.

Lemma trimEnd_white b : all_white b = true -> trimEnd b = "".
Proof.
  induction b as [|c b IH]; [done|]. cbn. intros [Hc Hb]%andb_true_iff.
  by rewrite (IH Hb), Hc.
Qed.

Lemma trimEnd_app_white s b : all_white b = true -> trimEnd (s +:+ b) = trimEnd s.
Proof.
  intros Hb. induction s as [|c s IH].
  - rewrite app_empty_l. by apply trimEnd_white.
  - rewrite app_String. cbn. by rewrite IH.
Qed.

Lemma trimEnd_black s : ends_black s = true -> trimEnd s = s.
Proof.
  induction s as [|c s IH]; [done|]. cbn.
  destruct s as [|c' s'].
  - cbn. by intros ->%negb_true_iff.
  - intros H. rewrite (IH H). done.
Qed.

Lemma trim_spec a core b :
  all_white a = true -> all_white b = true -> trimmed core ->
  trim (a +:+ core +:+ b) = core.
Proof.
  intros Ha Hb [->|[Hs He]]; unfold trim.
  - rewrite app_empty_l, trimStart_white by done.
    assert (all_white (trimStart b) = true) as Hw.
    { clear -Hb. induction b as [|c b IH]; [done|]. cbn in *.
      apply andb_true_iff in Hb as [Hc Hb]. rewrite Hc. by apply IH. }
    by apply trimEnd_white.
  - rewrite trimStart_white by done.
    rewrite trimStart_black.
    + rewrite trimEnd_app_white by done. by apply trimEnd_black.
    + destruct core; [done|]. by rewrite app_String.
Qed.

(** ** parsePhoneNumbers *)

(** C9: the parse of [" +1555,, +1666 ,"] is [["+1555"; "+1666"]]; a
    falsy argument ([undefined], [null], [""], [0], [false]) gives the
    empty list; a string made of pieces separated by commas gives, in the
    order of the pieces, the non-empty ones among the trimmed pieces,
    where trimming a piece removes the white space around it. *)
Theorem parsePhoneNumbers_spec :
  parsePhoneNumbers (Some (JStr " +1555,, +1666 ,")) = inr ["+1555"; "+1666"]
  /\ (forall v, truthy v = false -> parsePhoneNumbers v = inr [])
  /\ (forall pieces : list string,
        Forall (fun p => has_char "," p = false) pieces ->
        parsePhoneNumbers (Some (JStr (join "," pieces)))
        = inr (filter (fun num => num <> "") (map trim pieces)))
  /\ (forall a core b,
        all_white a = true -> all_white b = true -> trimmed core ->
        trim (a +:+ core +:+ b) = core).
Proof.
  split; [reflexivity|]. split; [|split].
  - intros v Hv. unfold parsePhoneNumbers. by rewrite Hv.
  - intros pieces Hall. unfold parsePhoneNumbers.
    destruct (truthy (Some (JStr (join "," pieces)))) eqn:Ht; cbn [negb].
    + rewrite split_join; [done| |done]. by intros ->.
    + cbn in Ht. apply negb_false_iff, bool_decide_eq_true in Ht.
      destruct pieces as [|p [|q ps]]; cbn in *; [done| |].
      * subst p. done.
      * destruct p; discriminate Ht.
  - apply trim_spec.
Qed.

Lemma parsePhoneNumbers_spec_witness :
  parsePhoneNumbers (Some (JNum 0)) = inr []
  /\ parsePhoneNumbers (Some (JStr "+1555,  ,+1666 "))
     = inr ["+1555"; "+1666"]
  /\ trim "  +1555 " = "+1555".
Proof.
  destruct parsePhoneNumbers_spec as (_ & Hfalsy & Hpieces & Htrim).
  split; [apply Hfalsy; reflexivity|]. split.
  - apply (Hpieces ["+1555"; "  "; "+1666 "]).
    repeat constructor.
  - apply (Htrim "  " "+1555" " "); [reflexivity|reflexivity|].
    right. split; reflexivity.
Defined.

(** ** Template renderer: defaults *)


Lemma or_else_truthy v b : truthy v = true -> or_else v b = v.
Proof. unfold or_else. by intros ->. Qed.










Example formatMessage_empty_callerNumber :
  formatMessage "9:30:00 AM" "1/1/2025" "From {callerNumber} ({callerName})"
    {[ "callerNumber" := JStr ""; "callerName" := JNull;
       "waitTime" := JBool false ]}
  = "From Unknown (Unknown)".
Proof. vm_compute; reflexivity. Qed.

(** ** Template renderer: one substitution per placeholder *)



























(** * Further properties of the server *)

Ltac unfold_handlers :=
  unfold handle, post_webhooks, put_webhook, post_archive, post_restore,
    post_import, addToChangelog, saveWebhooks, saveArchived, saveChangelog;
  unfold_M.

(** ** Management requests, the changelog and the files *)

(** X1: a management request never throws; it either answers 200 and
    appends exactly one changelog entry, stamped with the time of the
    request and the version of the server, or it answers another status
    and leaves the whole world as it was. *)
Theorem handle_logs_once r e w :
  exists resp, answer (handle r) e w = Return resp
    /\ ((status resp = 200%nat
         /\ exists a n d,
              changelog (exec (handle r) e w)
              = changelog w ++ [new_entry e a n d APP_VERSION])
        \/ (status resp <> 200%nat /\ exec (handle r) e w = w)).
Proof.
  destruct r as [name c|name c|name|name|wh ar]; unfold_handlers; cbn.
  - case_bool_decide; cbn.
    + eexists; split; [done|]. by right.
    + destruct (fsOk e); cbn; (eexists; split; [done|]; left; split; [done|]; eauto).
  - destruct (notificationConfigs w !! name) as [current|]; cbn.
    + destruct (fsOk e); cbn; (eexists; split; [done|]; left; split; [done|]; eauto).
    + eexists; split; [done|]. by right.
  - destruct (notificationConfigs w !! name) as [current|]; cbn.
    + destruct (fsOk e); cbn; (eexists; split; [done|]; left; split; [done|]; eauto).
    + eexists; split; [done|]. by right.
  - destruct (archivedWebhooks w !! name) as [archived|]; cbn.
    + destruct (fsOk e); cbn; (eexists; split; [done|]; left; split; [done|]; eauto).
    + eexists; split; [done|]. by right.
  - destruct wh as [wh|], ar as [ar|]; cbn; destruct (fsOk e); cbn;
      (eexists; split; [done|]; left; split; [done|]; eauto).
Qed.

(** X2: whether the files can be written changes neither the answer of a
    management request nor what it does in memory; when they cannot be
    written the files stay as they were, so that a process start after
    the request finds the stores of before the request. *)
Theorem handle_ignores_fs_failure r e w b :
  answer (handle r) (with_fsOk b e) w = answer (handle r) e w
  /\ memory (exec (handle r) (with_fsOk b e) w) = memory (exec (handle r) e w)
  /\ files (exec (handle r) (with_fsOk false e) w) = files w
  /\ memory (startup (exec (handle r) (with_fsOk false e) w)) = memory (startup w).
Proof.
  assert (forall w1 w2 : world, files w1 = files w2 ->
            memory (startup w1) = memory (startup w2)) as Hstart.
  { intros w1 w2 [= H1 H2 H3]. unfold memory, startup, loadWebhooks, loadArchived,
      loadChangelog. cbn. by rewrite H1, H2, H3. }
  assert (files (exec (handle r) (with_fsOk false e) w) = files w) as Hfiles.
  { destruct r as [name c|name c|name|name|wh ar]; unfold_handlers; cbn.
    - by case_bool_decide.
    - by destruct (notificationConfigs w !! name).
    - by destruct (notificationConfigs w !! name).
    - by destruct (archivedWebhooks w !! name).
    - by destruct wh, ar. }
  split; [|split; [|split]]; [| |exact Hfiles|by apply Hstart].
  - destruct r as [name c|name c|name|name|wh ar]; unfold_handlers; cbn.
    + case_bool_decide; [done|]. by destruct b, (fsOk e).
    + destruct (notificationConfigs w !! name); [|done]. by destruct b, (fsOk e).
    + destruct (notificationConfigs w !! name); [|done]. by destruct b, (fsOk e).
    + destruct (archivedWebhooks w !! name); [|done]. by destruct b, (fsOk e).
    + destruct wh, ar; by destruct b, (fsOk e).
  - destruct r as [name c|name c|name|name|wh ar]; unfold_handlers; cbn.
    + case_bool_decide; [done|]. by destruct b, (fsOk e).
    + destruct (notificationConfigs w !! name); [|done]. by destruct b, (fsOk e).
    + destruct (notificationConfigs w !! name); [|done]. by destruct b, (fsOk e).
    + destruct (archivedWebhooks w !! name); [|done]. by destruct b, (fsOk e).
    + destruct wh, ar; by destruct b, (fsOk e).
Qed.

(** X3: while the files can be written, a management request keeps the
    two maps in step with their files: if a process start would have
    found the maps of before the request, a start after the request
    finds the maps of after it; and after a request that answers 200 a
    start finds the last 100 entries of the changelog. *)
Theorem handle_durable r e w :
  fsOk e = true -> durable w ->
  notificationConfigs (startup (exec (handle r) e w))
    = notificationConfigs (exec (handle r) e w)
  /\ archivedWebhooks (startup (exec (handle r) e w))
     = archivedWebhooks (exec (handle r) e w)
  /\ (forall resp, answer (handle r) e w = Return resp -> status resp = 200%nat ->
      changelog (startup (exec (handle r) e w))
      = slice_last 100 (changelog (exec (handle r) e w))).
Proof.
  intros Hfs [Hw Ha]. unfold startup, loadWebhooks, loadArchived, loadChangelog in *.
  destruct r as [name c|name c|name|name|wh ar]; unfold_handlers; cbn -[slice_last];
    [ case_bool_decide
    | destruct (notificationConfigs w !! name)
    | destruct (notificationConfigs w !! name)
    | destruct (archivedWebhooks w !! name)
    | destruct wh as [wh|], ar as [ar|] ];
    cbn -[slice_last]; rewrite ?Hfs; cbn -[slice_last];
    (split; [done|]; split; [done|]; intros resp [= <-]; done).
Qed.

Lemma handle_durable_witness :
  notificationConfigs
    (startup (exec (handle (CreateRequest "vip" vip_config)) quiet_env empty_world))
    !! "vip" = Some vip_config.
Proof.
  destruct (handle_durable (CreateRequest "vip" vip_config) quiet_env
              (startup empty_world)) as (Hc & _ & _).
  - reflexivity.
  - split; reflexivity.
  - vm_compute. reflexivity.
Defined.

(** ** Export and import *)

(** X4: importing what [GET /api/export] gives back, in the world it was
    taken from, answers 200, leaves the two maps as they are and appends
    one [data_imported] entry that counts the active webhooks. *)
Theorem import_of_export e1 e2 w x :
  answer get_export e1 w = Return x ->
  let w' := exec (post_import (Some (export_webhooks x)) (Some (export_archived x)))
              e2 w in
  answer (post_import (Some (export_webhooks x)) (Some (export_archived x))) e2 w
    = Return {| status := 200; payload := Success "Data imported successfully" |}
  /\ notificationConfigs w' = notificationConfigs w
  /\ archivedWebhooks w' = archivedWebhooks w
  /\ changelog w'
     = changelog w
       ++ [new_entry e2 "data_imported" "system"
             (JObj {[ "webhookCount" :=
                        JNum (Z.of_nat (size (notificationConfigs w))) ]})
             APP_VERSION].
Proof.
  unfold get_export. unfold_M. cbn. intros [= <-]. cbn.
  destruct (store_after_import (Some (notificationConfigs w))
              (Some (archivedWebhooks w)) e2 w) as [Hc Ha].
  cbn in Hc, Ha. rewrite (idemp_L (∪)) in Hc. rewrite (idemp_L (∪)) in Ha.
  split; [|split; [exact Hc|split; [exact Ha|]]].
  - unfold_handlers. cbn. by destruct (fsOk e2).
  - unfold_handlers. cbn. by destruct (fsOk e2).
Qed.

Lemma import_of_export_witness :
  notificationConfigs
    (exec (post_import (Some {[ "vip" := vip_config ]}) (Some ∅)) quiet_env vip_world)
  = {[ "vip" := vip_config ]}.
Proof.
  destruct (import_of_export quiet_env quiet_env vip_world
              {| export_version := APP_VERSION;
                 export_timestamp := isoNow quiet_env;
                 export_webhooks := {[ "vip" := vip_config ]};
                 export_archived := ∅;
                 export_changelog := [] |} eq_refl) as (_ & Hc & _).
  exact Hc.
Defined.

(** X5: an import overwrites exactly the names it brings and removes
    none: in each map a name of the imported object gets the imported
    config, any other name keeps what it had; a part that is missing from
    the body leaves its map alone. *)
Theorem import_merges (webhooks archived : option (gmap string obj)) e w (k : string) :
  notificationConfigs (exec (post_import webhooks archived) e w) !! k
    = match default ∅ webhooks !! k with
      | Some c => Some c
      | None => notificationConfigs w !! k
      end
  /\ archivedWebhooks (exec (post_import webhooks archived) e w) !! k
     = match default ∅ archived !! k with
       | Some c => Some c
       | None => archivedWebhooks w !! k
       end
  /\ dom (notificationConfigs w)
       ⊆ dom (notificationConfigs (exec (post_import webhooks archived) e w))
  /\ dom (archivedWebhooks w)
       ⊆ dom (archivedWebhooks (exec (post_import webhooks archived) e w)).
Proof.
  destruct (store_after_import webhooks archived e w) as [-> ->].
  rewrite !lookup_union, !dom_union_L.
  split; [|split; [|split]]; [| |set_solver|set_solver].
  - destruct (default ∅ webhooks !! k), (notificationConfigs w !! k); done.
  - destruct (default ∅ archived !! k), (archivedWebhooks w !! k); done.
Qed.

(** ** Create and update *)



(** X7: an update of an active name answers 200 and merges field by
    field: a field of the body takes the body's value, any other field
    keeps its value; other names and the archived map are untouched, and
    the changelog entry carries the config of before and the config of
    after. *)
Theorem update_merges (name : string) (patch current : obj) e w :
  notificationConfigs w !! name = Some current ->
  let w' := exec (put_webhook name patch) e w in
  answer (put_webhook name patch) e w
    = Return {| status := 200; payload := Success "Webhook updated" |}
  /\ (exists updated, notificationConfigs w' !! name = Some updated
      /\ (forall field : string,
            updated !! field
            = match patch !! field with
              | Some v => Some v
              | None => current !! field
              end)
      /\ changelog w'
         = changelog w
           ++ [new_entry e "webhook_updated" name
                 (JObj {[ "old" := JObj current; "new" := JObj updated ]})
                 APP_VERSION])
  /\ (forall k : string, k <> name ->
      notificationConfigs w' !! k = notificationConfigs w !! k)
  /\ archivedWebhooks w' = archivedWebhooks w.
Proof.
  intros Hcur w'. subst w'.
  destruct (store_after_update name patch e w) as [Hc Ha]. rewrite Hcur in Hc.
  split; [|split; [|split]].
  - unfold_handlers. cbn. rewrite Hcur. cbn. by destruct (fsOk e).
  - exists (patch ∪ current). rewrite Hc, lookup_insert_eq.
    split; [done|]. split.
    + intros field. rewrite lookup_union.
      by destruct (patch !! field), (current !! field).
    + unfold_handlers. cbn. rewrite Hcur. cbn. rewrite lookup_insert_eq.
      rewrite !spread_empty. unfold spread, prop. cbn.
      assert (<["new" := JObj (patch ∪ current)]> (<["old" := JObj current]> ∅)
              = ({[ "old" := JObj current; "new" := JObj (patch ∪ current) ]}
                   : obj)) as ->.
      { rewrite insert_insert_ne by done. by rewrite insert_empty. }
      by destruct (fsOk e).
  - intros k Hk. rewrite Hc. by rewrite lookup_insert_ne.
  - exact Ha.
Qed.

Lemma update_merges_witness :
  exists updated,
    notificationConfigs
      (exec (put_webhook "vip" {[ "email" := JStr "a@b.c" ]}) quiet_env vip_world)
      !! "vip" = Some updated
    /\ updated !! "email" = Some (JStr "a@b.c")
    /\ updated !! "recipients" = Some (JStr "+15550001111").
Proof.
  destruct (update_merges "vip" {[ "email" := JStr "a@b.c" ]} vip_config
              quiet_env vip_world eq_refl) as (_ & (updated & Hu & Hf & _) & _).
  exists updated. split; [exact Hu|]. split.
  - rewrite Hf. reflexivity.
  - rewrite Hf. reflexivity.
Defined.

(** ** Requests on names that are not there *)





(** ** The webhook trigger *)

Lemma getAccessToken_memory e w :
  memory (exec getAccessToken e w) = memory w
  /\ files (exec getAccessToken e w) = files w.
Proof.
  unfold getAccessToken. unfold_M. destruct (token_valid e w); cbn; [done|].
  by destruct (tokenReply e).
Qed.



(** X11: a trigger never throws and never changes the two maps; it
    appends to the changelog exactly when it answers 200, and then one
    entry; any other answer leaves the changelog and the files as they
    were. *)
Theorem sms_whook_store_unchanged (type : string) (body query : obj) e w :
  let w' := exec (sms_whook addToChangelog type body query) e w in
  exists resp,
    answer (sms_whook addToChangelog type body query) e w = Return resp
    /\ notificationConfigs w' = notificationConfigs w
    /\ archivedWebhooks w' = archivedWebhooks w
    /\ ((status resp = 200%nat
         /\ changelog w'
            = changelog w
              ++ [new_entry e "webhook_triggered" type
                    (JObj (prop "callerNumber"
                             (eventData body query !! "callerNumber") ∅))
                    APP_VERSION])
        \/ (status resp <> 200%nat
            /\ changelog w' = changelog w /\ files w' = files w)).
Proof.
  intros w'. subst w'.
  destruct (getAccessToken_memory e w) as [Hmem Hfiles].
  unfold answer, exec, memory, files in *.
  unfold sms_whook, call_formatMessage, sendSMS, addToChangelog, saveChangelog.
  unfold_M. cbn.
  destruct (notificationConfigs w !! type) as [config|]; cbn.
  { destruct (config !! "messageTemplate") as [[| | |t| |]|]; cbn;
      try (eexists; split; [done|]; split; [done|]; split; [done|]; by right).
    destruct (getAccessToken e w) as [[tok|err] w1]; cbn in *;
      injection Hmem as Hc Ha Hl; injection Hfiles as Hf1 Hf2 Hf3;
      [|eexists; split; [done|]; split; [done|]; split; [done|]; right;
        by rewrite Hl, Hf1, Hf2, Hf3].
    destruct (parsePhoneNumbers (config !! "recipients")) as [err|numbers]; cbn;
      [eexists; split; [done|]; split; [done|]; split; [done|]; right;
       by rewrite Hl, Hf1, Hf2, Hf3|].
    case_bool_decide; cbn;
      [eexists; split; [done|]; split; [done|]; split; [done|]; right;
       by rewrite Hl, Hf1, Hf2, Hf3|].
    destruct (smsReply e) as [err|data]; cbn;
      [eexists; split; [done|]; split; [done|]; split; [done|]; right;
       by rewrite Hl, Hf1, Hf2, Hf3|].
    destruct (fsOk e); cbn;
      (eexists; split; [done|]; split; [done|]; split; [done|]; left;
       by rewrite Hl). }
  eexists; split; [done|]; split; [done|]; split; [done|]. by right.
Qed.



(** ** Rendering *)











(** ** Recipients *)

Lemma split_pieces sep s : Forall (fun p => has_char sep p = false) (split sep s).
Proof.
  induction s as [|c s IH]; cbn; [by repeat constructor|].
  case_bool_decide as Hc.
  - by constructor.
  - destruct (split sep s) as [|piece rest] eqn:Hsplit;
      [by apply split_not_nil in Hsplit|].
    apply Forall_cons in IH as [Hp Hrest]. constructor; [|done].
    cbn. by rewrite Hp, bool_decide_eq_false_2.
Qed.

Lemma trimStart_has_char c s :
  has_char c s = false -> has_char c (trimStart s) = false.
Proof.
  induction s as [|a s IH]; [done|]. cbn. intros [Ha Hs]%orb_false_iff.
  destruct (is_white a); [by apply IH|]. cbn. by rewrite Ha, Hs.
Qed.

Lemma trimEnd_has_char c s :
  has_char c s = false -> has_char c (trimEnd s) = false.
Proof.
  induction s as [|a s IH]; [done|]. cbn. intros [Ha Hs]%orb_false_iff.
  specialize (IH Hs). destruct (trimEnd s) as [|b r].
  - destruct (is_white a); [done|]. cbn. by rewrite Ha.
  - cbn in *. by rewrite Ha, IH.
Qed.

Lemma trimStart_shape s : trimStart s = "" \/ starts_black (trimStart s) = true.
Proof.
  induction s as [|a s IH]; [by left|]. cbn.
  destruct (is_white a) eqn:Ha; [exact IH|]. right. cbn. by rewrite Ha.
Qed.

Lemma trimEnd_shape s : trimEnd s = "" \/ ends_black (trimEnd s) = true.
Proof.
  induction s as [|a s IH]; [by left|]. cbn.
  destruct (trimEnd s) as [|b r].
  - destruct (is_white a) eqn:Ha; [by left|]. right. cbn. by rewrite Ha.
  - right. by destruct IH.
Qed.

Lemma trimEnd_starts s : starts_black s = true -> starts_black (trimEnd s) = true.
Proof.
  destruct s as [|a s]; [done|]. cbn. intros Ha.
  destruct (trimEnd s); [|exact Ha]. apply negb_true_iff in Ha as Ha'.
  by rewrite Ha'.
Qed.

Lemma trim_trimmed s : trimmed (trim s).
Proof.
  unfold trim, trimmed. destruct (trimStart_shape s) as [->|Hs]; [by left|].
  apply trimEnd_starts in Hs.
  destruct (trimEnd_shape (trimStart s)) as [He|He]; [|by right].
  rewrite He in Hs. done.
Qed.

(** X15: whatever string it is given, [parsePhoneNumbers] returns numbers
    that are not empty, hold no comma and have no white space at either
    end; it throws exactly on a truthy argument that is not a string. *)
Theorem parsePhoneNumbers_output (v : option json) :
  (forall numbers, parsePhoneNumbers v = inr numbers ->
     Forall (fun n => n <> "" /\ has_char "," n = false /\ trimmed n /\ trim n = n)
       numbers)
  /\ ((exists err, parsePhoneNumbers v = inl err)
      <-> truthy v = true /\ forall s, v <> Some (JStr s)).
Proof.
  split.
  - intros numbers. unfold parsePhoneNumbers.
    destruct (truthy v); cbn [negb]; [|by intros [= <-]].
    destruct v as [[| | |s| |]|]; try done. intros [= <-].
    apply Forall_forall. intros n [Hne Hin]%list_elem_of_filter.
    apply list_elem_of_fmap in Hin as (piece & -> & Hin).
    pose proof (split_pieces "," s) as Hall.
    rewrite Forall_forall in Hall. specialize (Hall piece Hin).
    pose proof (trim_trimmed piece) as Htr.
    split; [done|]. split; [|split; [done|]].
    + unfold trim. by apply trimEnd_has_char, trimStart_has_char.
    + rewrite <- (app_empty_r (trim piece)) at 1.
      by apply (trim_spec "" (trim piece) "").
  - unfold parsePhoneNumbers. split.
    + intros [err Herr]. destruct (truthy v); cbn [negb] in Herr; [|done].
      split; [done|]. intros s ->. done.
    + intros [Ht Hs]. rewrite Ht. cbn [negb].
      destruct v as [[| | |s| |]|]; try (by eexists).
      by destruct (Hs s).
Qed.

Lemma parsePhoneNumbers_output_witness :
  Forall (fun n => n <> "" /\ has_char "," n = false /\ trimmed n /\ trim n = n)
    ["+1555"; "+1555"]
  /\ exists err, parsePhoneNumbers (Some (JNum 15551234567)) = inl err.
Proof.
  destruct (parsePhoneNumbers_output (Some (JStr "+1555 , +1555"))) as [Hout _].
  destruct (parsePhoneNumbers_output (Some (JNum 15551234567))) as [_ Herr].
  split.
  - apply Hout. reflexivity.
  - apply Herr. split; [reflexivity|]. intros s. discriminate.
Defined.

(** X16: recipients that are truthy but not a string make [sendSMS]
    throw the type error of the parse, after the token has been obtained
    and without any message sent. *)
Theorem sendSMS_bad_recipients message recipients err e w :
  parsePhoneNumbers recipients = inl err ->
  answer (sendSMS message recipients) e w
    = match answer getAccessToken e w with
      | Return _ => Throw err
      | Throw err' => Throw err'
      end
  /\ exec (sendSMS message recipients) e w = exec getAccessToken e w.
Proof.
  intros Hparse. unfold answer, exec, sendSMS. unfold_M.
  destruct (getAccessToken e w) as [[tok|err'] w']; [|done].
  by rewrite Hparse.
Qed.

Lemma sendSMS_bad_recipients_witness :
  answer (sendSMS "hello" (Some (JArr [JStr "+1555"]))) quiet_env cached_world
  = Throw (TypeError "phoneString.split is not a function").
Proof.
  by destruct (sendSMS_bad_recipients "hello" (Some (JArr [JStr "+1555"]))
                 (TypeError "phoneString.split is not a function")
                 quiet_env cached_world eq_refl) as [H _].
Defined.

(** ** The token over two calls *)



(** ** The changelog on disk *)

(** X18: when the file can be written, what an append of the persistent
    server leaves on disk is the last 100 entries of the changelog in
    memory: at most 100 entries, the newest last; when it cannot, the
    file is as before. *)
Theorem addToChangelog_saves a n d e w :
  (fsOk e = true ->
   exists saved,
     changelogFile (exec (addToChangelog a n d) e w) = Some saved
     /\ saved = slice_last 100 (changelog (exec (addToChangelog a n d) e w))
     /\ (length saved <= 100)%nat
     /\ saved `suffix_of` changelog (exec (addToChangelog a n d) e w)
     /\ last saved = Some (new_entry e a n d APP_VERSION))
  /\ (fsOk e = false ->
      changelogFile (exec (addToChangelog a n d) e w) = changelogFile w).
Proof.
  split; intros Hfs.
  - rewrite (addToChangelog_file _ _ _ _ _ Hfs), addToChangelog_changelog.
    eexists. split; [done|]. split; [done|].
    split; [rewrite length_slice_last; lia|]. split.
    + unfold slice_last. apply suffix_drop.
    + unfold slice_last. rewrite length_app. cbn.
      rewrite drop_app_le by lia. by rewrite last_snoc.
  - unfold addToChangelog, saveChangelog. unfold_M. cbn. by rewrite Hfs.
Qed.

Lemma addToChangelog_saves_witness :
  length <$> changelogFile
               (exec (addToChangelog "webhook_created" "vip" (JObj ∅)) quiet_env
                  empty_world)
  = Some 1%nat.
Proof.
  destruct (addToChangelog_saves "webhook_created" "vip" (JObj ∅) quiet_env
              empty_world) as [Hok _].
  destruct (Hok eq_refl) as (saved & -> & -> & _). reflexivity.
Defined.

(** ** Event data, field by field *)

(** X19: the event data of a trigger holds every field of the payload as
    it is; for a name the payload does not have, it holds the alias
    resolution if the name is [callerNumber] (caller, else from),
    [callerName] (name), [extension] (extensionNumber, else to) or
    [customMessage] (message of the payload, else of the query string),
    and nothing otherwise. *)
Theorem eventData_lookup (body query : obj) (k : string) :
  eventData body query !! k
  = match body !! k with
    | Some v => Some v
    | None =>
        if decide (k = "callerNumber")
        then or_else (body !! "caller") (body !! "from")
        else if decide (k = "callerName") then body !! "name"
        else if decide (k = "extension")
        then or_else (body !! "extensionNumber") (body !! "to")
        else if decide (k = "customMessage")
        then or_else (body !! "message") (query !! "message")
        else None
    end.
Proof.
  destruct (body !! k) as [v|] eqn:Hk; [by apply eventData_payload_wins|].
  unfold eventData, spread. rewrite lookup_union_r by exact Hk.
  rewrite !lookup_prop, lookup_empty.
  repeat case_decide; simplify_eq; try done; try by rewrite Hk.
Qed.

(** ** The test endpoint *)




(** ** The summary of the configs *)




(** ** Start-up *)



(** ** Moves that overwrite *)



(** X24: updating twice with the same body leaves the config as after
    the first update. *)
Theorem update_twice (name : string) (patch current : obj) e1 e2 w :
  notificationConfigs w !! name = Some current ->
  notificationConfigs
    (exec (put_webhook name patch) e2 (exec (put_webhook name patch) e1 w))
  = notificationConfigs (exec (put_webhook name patch) e1 w).
Proof.
  intros Hcur.
  destruct (store_after_update name patch e1 w) as [Hc1 _]. rewrite Hcur in Hc1.
  destruct (store_after_update name patch e2 (exec (put_webhook name patch) e1 w))
    as [-> _].
  rewrite Hc1, lookup_insert_eq, insert_insert_eq.
  by rewrite (assoc_L (∪)), (idemp_L (∪)).
Qed.

Lemma update_twice_witness :
  notificationConfigs
    (exec (put_webhook "vip" {[ "email" := JStr "a@b.c" ]}) quiet_env
       (exec (put_webhook "vip" {[ "email" := JStr "a@b.c" ]}) quiet_env vip_world))
  = notificationConfigs
      (exec (put_webhook "vip" {[ "email" := JStr "a@b.c" ]}) quiet_env vip_world).
Proof.
  apply (update_twice "vip" {[ "email" := JStr "a@b.c" ]} vip_config).
  reflexivity.
Defined.

(** X25: a trigger of a webhook whose template is missing or is not a
    string answers 500 and leaves the whole world as it was: no token is
    requested, nothing is sent, nothing is recorded. *)
Theorem sms_whook_bad_template (type : string) (config body query : obj) e w :
  notificationConfigs w !! type = Some config ->
  (forall template, config !! "messageTemplate" <> Some (JStr template)) ->
  (exists text,
     answer (sms_whook addToChangelog type body query) e w
     = Return {| status := 500; payload := Failure text |})
  /\ exec (sms_whook addToChangelog type body query) e w = w.
Proof.
  intros Hcfg Htpl. unfold sms_whook, call_formatMessage. unfold_M. cbn.
  rewrite Hcfg. cbn.
  destruct (config !! "messageTemplate") as [[| | |t| |]|]; cbn;
    try (split; [by eexists|done]).
  by destruct (Htpl t).
Qed.

Lemma sms_whook_bad_template_witness :
  exec (sms_whook addToChangelog "bare" ∅ ∅) quiet_env
    (set_notificationConfigs {[ "bare" := ∅ ]} empty_world)
  = set_notificationConfigs {[ "bare" := ∅ ]} empty_world.
Proof.
  destruct (sms_whook_bad_template "bare" ∅ ∅ ∅ quiet_env
              (set_notificationConfigs {[ "bare" := ∅ ]} empty_world))
    as [_ H]; [reflexivity|done|exact H].
Defined.

(** ** The changelog of [app.js] over many appends *)

(** X26: with the recorder of [app.js], after any number of appends (at
    least one) the changelog in memory has at most 100 entries; started
    from at most 100 entries it has the number of entries appended and
    found, capped at 100. *)
Theorem AppJs_changelog_capped n w :
  (0 < n)%nat ->
  (length (changelog (appends AppJs.addToChangelog n w)) <= 100)%nat
  /\ ((length (changelog w) <= 100)%nat ->
      length (changelog (appends AppJs.addToChangelog n w))
      = Nat.min 100 (n + length (changelog w))).
Proof.
  intros Hn. split.
  - destruct n as [|n]; [lia|]. cbn [appends].
    rewrite AppJs_addToChangelog_changelog. cbv zeta.
    case_bool_decide as Hlen.
    + rewrite length_slice_last. apply Nat.le_min_l.
    + by apply Nat.nlt_ge.
  - intros Hw. clear Hn. induction n as [|n IH]; [cbn [appends]; lia|].
    cbn [appends]. rewrite AppJs_addToChangelog_changelog. cbv zeta.
    set (l := changelog (appends AppJs.addToChangelog n w)) in *.
    case_bool_decide as Hlen; rewrite ?length_slice_last, length_app in *;
      cbn [length] in *; lia.
Qed.

Lemma AppJs_changelog_capped_witness :
  length (changelog (appends AppJs.addToChangelog 3 empty_world)) = 3%nat.
Proof.
  destruct (AppJs_changelog_capped 3 empty_world) as [_ H]; [lia|].
  rewrite H; [reflexivity | cbn; lia].
Defined.

(** ** Dollar signs in event values *)


